(** * AggregatedProfiles: fit and plot of dalex/dataset_level/_aggregated_profiles/object.py

    A shallow embedding of the class [AggregatedProfiles].  Python objects
    that the methods inspect with [isinstance] are a small value type
    [pyobj]; data frames are lists of typed rows (one record per schema);
    floats are idealised as rationals with a NaN; exceptions are values of
    [exn] and a call either returns or raises.  [fit] mutates [self], so it
    runs in a state-and-error monad whose state is the object: the state
    reached when an exception leaves the method is part of the outcome.
    [plot] does not write to [self]; its state is the log of calls made to
    the plotting library. *)

From Stdlib Require Import List String ZArith QArith Bool Lia Sorted.
Import ListNotations.
Open Scope string_scope.
Open Scope Z_scope.

(** ** Exceptions and outcomes *)

Inductive exn : Type :=
| TypeError (msg : string)
| ValueError (msg : string)
| AttributeError (msg : string)
| ZeroDivisionError (msg : string)
| ValidationError (msg : string).

Inductive outcome (A : Type) : Type :=
| Ok (a : A)
| Raise (e : exn).
Arguments Ok {A} a.
Arguments Raise {A} e.

Definition obind {A B} (c : outcome A) (k : A -> outcome B) : outcome B :=
  match c with
  | Ok a => k a
  | Raise e => Raise e
  end.

Definition raises_type_error {A} (c : outcome A) : Prop :=
  exists msg, c = Raise (TypeError msg).

(** State-and-error monad: the state survives a raise. *)
Definition M (S A : Type) : Type := S -> S * outcome A.

Definition ret {S A} (a : A) : M S A := fun s => (s, Ok a).
Definition raise {S A} (e : exn) : M S A := fun s => (s, Raise e).
Definition bind {S A B} (c : M S A) (k : A -> M S B) : M S B :=
  fun s => match c s with
           | (s', Ok a) => k a s'
           | (s', Raise e) => (s', Raise e)
           end.
Definition lift {S A} (c : outcome A) : M S A := fun s => (s, c).
Definition modify {S} (f : S -> S) : M S unit := fun s => (f s, Ok tt).
Definition get {S} : M S S := fun s => (s, Ok s).

Declare Scope py_scope.
Delimit Scope py_scope with py.
Notation "x <- c ;; k" := (bind c (fun x => k))
  (at level 61, c at next level, right associativity) : py_scope.
Notation "c ;;; k" := (bind c (fun _ => k))
  (at level 61, right associativity) : py_scope.
Notation "' ( x , y ) <- c ;; k" := (bind c (fun p => let '(x, y) := p in k))
  (at level 61, c at next level, x name, y name, right associativity) : py_scope.

(** ** Floats and cells *)

(** A Python float: a rational (rounding is not modelled) or NaN. *)
Inductive pyfloat : Type :=
| NaN
| Fl (q : Q).

Inductive cell : Type :=
| CNum (x : pyfloat)
| CStr (s : string).

Definition is_num (c : cell) : bool :=
  match c with CNum _ => true | CStr _ => false end.

(** ** Data frames, one row record per schema *)

(** Rows of [CeterisParibus.result]: the per-instance profile table. *)
Module Prof.
Record row : Type := {
  features : list (string * cell);
  _yhat_ : pyfloat;
  _vname_ : option string;
  _ids_ : Z;
  _label_ : option string
}.
End Prof.

(** Rows of [CeterisParibus.new_observation]: the observations with their
    predictions. *)
Module Obs.
Record row : Type := {
  features : list (string * cell);
  _yhat_ : pyfloat;
  _label_ : option string
}.
End Obs.

(** Rows of [AggregatedProfiles.result]. *)
Module Agg.
Record row : Type := {
  _vname_ : option string;
  _label_ : option string;
  _x_ : cell;
  _yhat_ : pyfloat;
  _ids_ : Z;
  _groups_ : option string
}.
End Agg.

Definition profiles : Type := list Prof.row.
Definition observations : Type := list Obs.row.
Definition xprofiles : Type := list (Prof.row * cell).   (* with the [_x_] column *)
Definition aggregated : Type := list Agg.row.

(** [DataFrame.copy()] and [deepcopy]: values of the model are immutable, a
    copy is the value itself, and what is stored is shared with nobody. *)
Definition copy {A} (df : A) : A := df.
Definition deepcopy {A} (x : A) : A := x.

(** [pd.concat(objs)]: [None] entries are dropped; with nothing left pandas
    raises [ValueError]; otherwise the rows are appended in order. *)
Fixpoint drop_none {A} (objs : list (option A)) : list A :=
  match objs with
  | [] => []
  | None :: r => drop_none r
  | Some a :: r => a :: drop_none r
  end.

Definition pd_concat {A} (objs : list (option (list A))) : outcome (list A) :=
  match drop_none objs with
  | [] => Raise (ValueError
            match objs with
            | [] => "No objects to concatenate"
            | _ => "All objects passed were None"
            end)
  | dfs => Ok (List.concat dfs)
  end.

(** [Series.mean()]: NaN entries are skipped; the mean of nothing is NaN. *)
Fixpoint dropna_float (s : list pyfloat) : list Q :=
  match s with
  | [] => []
  | NaN :: r => dropna_float r
  | Fl q :: r => q :: dropna_float r
  end.

Definition Qsum (l : list Q) : Q := fold_left Qplus l 0%Q.

Definition mean (s : list pyfloat) : pyfloat :=
  match dropna_float s with
  | [] => NaN
  | qs => Fl (Qsum qs / inject_Z (Z.of_nat (List.length qs)))
  end.

(** ** The objects *)

Module CP.
(** [dalex.instance_level.CeterisParibus], as far as [fit] reads it. *)
Record t : Type := {
  result : profiles;
  new_observation : observations
}.
End CP.

Record AggregatedProfiles : Type := {
  variable_type : string;
  groups : option (list string);
  type : string;
  variables : option (list string);
  span : Q;
  center : bool;
  result : option aggregated;
  mean_prediction : option pyfloat;
  raw_profiles : option CP.t;
  random_state : option Z
}.

Definition set_result (v : option aggregated) (self : AggregatedProfiles) :=
  {| variable_type := variable_type self; groups := groups self;
     type := type self; variables := variables self; span := span self;
     center := center self; result := v;
     mean_prediction := mean_prediction self;
     raw_profiles := raw_profiles self; random_state := random_state self |}.

Definition set_mean_prediction (v : option pyfloat) (self : AggregatedProfiles) :=
  {| variable_type := variable_type self; groups := groups self;
     type := type self; variables := variables self; span := span self;
     center := center self; result := result self;
     mean_prediction := v;
     raw_profiles := raw_profiles self; random_state := random_state self |}.

Definition set_raw_profiles (v : option CP.t) (self : AggregatedProfiles) :=
  {| variable_type := variable_type self; groups := groups self;
     type := type self; variables := variables self; span := span self;
     center := center self; result := result self;
     mean_prediction := mean_prediction self;
     raw_profiles := v; random_state := random_state self |}.

(** The Python values the methods receive and test with [isinstance]. *)
#[warnings="-register-all"]
Inductive pyobj : Type :=
| PyNone
| PyInt (z : Z)
| PyStr (s : string)
| PyCP (cp : CP.t)
| PyAP (ap : AggregatedProfiles)
| PyList (l : list pyobj)
| PyTuple (l : list pyobj).

Definition isinstance_CeterisParibus (o : pyobj) : bool :=
  match o with PyCP _ => true | _ => false end.

(** [series.isin(values)]: a missing name is in no list. *)
Definition isin (v : option string) (values : list string) : bool :=
  match v with
  | Some s => existsb (String.eqb s) values
  | None => false
  end.

(** [all_observations['_yhat_']]: subscripting [None] is a [TypeError]. *)
Definition getitem_yhat (all_observations : option observations)
  : outcome (list pyfloat) :=
  match all_observations with
  | None => Raise (TypeError "'NoneType' object is not subscriptable")
  | Some df => Ok (map Obs._yhat_ df)
  end.

(** ** fit *)

(** Lines 120-124: the loop over a list or tuple.  The accumulators start
    as [None]; the first element that is not a container raises. *)
Fixpoint fit_loop (ceteris_paribus : list pyobj)
    (all_profiles : option profiles) (all_observations : option observations)
  : outcome (option profiles * option observations) :=
  match ceteris_paribus with
  | [] => Ok (all_profiles, all_observations)
  | PyCP cp :: rest =>
      obind (pd_concat [all_profiles; Some (copy (CP.result cp))])
        (fun all_profiles' =>
      obind (pd_concat [all_observations; Some (copy (CP.new_observation cp))])
        (fun all_observations' =>
      fit_loop rest (Some all_profiles') (Some all_observations')))
  | _ :: _ => Raise (TypeError "Some explanations aren't of CeterisParibus class")
  end.

Local Open Scope py_scope.

(** Lines 112-127: the dispatch on the argument's class. *)
Definition fit_collect (ceteris_paribus : pyobj)
  : M AggregatedProfiles (option profiles * option observations) :=
  match ceteris_paribus with
  | PyCP cp =>
      let all_profiles := copy (CP.result cp) in
      let all_observations := copy (CP.new_observation cp) in
      modify (set_raw_profiles (Some (deepcopy cp))) ;;;
      ret (Some all_profiles, Some all_observations)
  | PyList l | PyTuple l => lift (fit_loop l None None)
  | _ => raise (TypeError
      "'ceteris_paribus' should be either Ceteris Paribus object or list/tuple of CeterisParbus objects")
  end.

Section Fit.

(** The helpers of [checks.py] and [utils.py] are not part of the
    excerpt.  They are parameters here: functions of their arguments
    that return or raise, and that may be handed [None] where [fit]
    hands it on. *)
Variable prepare_all_variables :
  option profiles -> option (list string) -> outcome (list string).
Variable prepare_numerical_categorical :
  list string -> option profiles -> string -> outcome (profiles * list string).
Variable create_x : profiles -> string -> outcome xprofiles.
Variable aggregate_profiles :
  xprofiles -> string -> option (list string) -> bool -> Q -> bool ->
  outcome aggregated.

(** Lines 129-141: the pipeline on the collected tables. *)
Definition fit_aggregate (all_profiles : option profiles)
    (all_observations : option observations) (verbose : bool)
  : M AggregatedProfiles unit :=
  self <- get ;;
  all_variables <- lift (prepare_all_variables all_profiles (variables self)) ;;
  self <- get ;;
  '(all_profiles, vnames) <-
     lift (prepare_numerical_categorical all_variables all_profiles
             (variable_type self)) ;;
  let all_profiles :=
    filter (fun r => isin (Prof._vname_ r) vnames) all_profiles in
  self <- get ;;
  all_profiles <- lift (create_x all_profiles (variable_type self)) ;;
  self <- get ;;
  r <- lift (aggregate_profiles all_profiles (type self) (groups self)
               (center self) (span self) verbose) ;;
  modify (set_result (Some r)) ;;;
  yhat <- lift (getitem_yhat all_observations) ;;
  modify (set_mean_prediction (Some (mean yhat))).

Definition fit (ceteris_paribus : pyobj) (verbose : bool)
  : M AggregatedProfiles unit :=
  '(all_profiles, all_observations) <- fit_collect ceteris_paribus ;;
  fit_aggregate all_profiles all_observations verbose.

(** The table that lines 129-139 compute, read off as a function of the
    configuration fields of [self] and of the collected profiles. *)
Definition aggregated_table (self : AggregatedProfiles)
    (all_profiles : option profiles) (verbose : bool) : outcome aggregated :=
  obind (prepare_all_variables all_profiles (variables self))
    (fun all_variables =>
  obind (prepare_numerical_categorical all_variables all_profiles
           (variable_type self))
    (fun pv =>
  obind (create_x
           (filter (fun r => isin (Prof._vname_ r) (snd pv)) (fst pv))
           (variable_type self))
    (fun all_profiles' =>
  aggregate_profiles all_profiles' (type self) (groups self) (center self)
    (span self) verbose))).

End Fit.

(** ** plot *)

(** Name arguments of the constructor and of [plot]: [None], one string or
    a sequence of strings. *)
Inductive names : Type :=
| NamesNone
| NamesStr (s : string)
| NamesSeq (l : list string).

(** Lines 198-199: a single string becomes a 1-tuple. *)
Definition normalize_names (variables : names) : option (list string) :=
  match variables with
  | NamesNone => None
  | NamesStr s => Some [s]
  | NamesSeq l => Some l
  end.

(** [x in ("aggregates", "profiles")]: only a string can equal a string. *)
Definition py_in_strs (x : pyobj) (t : list string) : bool :=
  match x with
  | PyStr s => existsb (String.eqb s) t
  | _ => false
  end.

(** [geom is 'profiles']: for a literal argument the interned string is the
    same object, and identity is read as equality.  An equal string built
    at run time is another object, for which the code draws no overlay;
    such an argument is outside this reading. *)
Definition is_profiles (geom : pyobj) : bool :=
  match geom with
  | PyStr s => String.eqb s "profiles"
  | _ => false
  end.

(** Iterating a Python value with [for]: sequences give their elements, a
    string its characters, anything else is not iterable. *)
Definition py_iter (o : pyobj) : outcome (list pyobj) :=
  match o with
  | PyList l | PyTuple l => Ok l
  | PyStr s => Ok (map (fun c => PyStr (String c EmptyString)) (list_ascii_of_string s))
  | PyNone => Raise (TypeError "'NoneType' object is not iterable")
  | PyInt _ => Raise (TypeError "'int' object is not iterable")
  | PyCP _ => Raise (TypeError "'CeterisParibus' object is not iterable")
  | PyAP _ => Raise (TypeError "'AggregatedProfiles' object is not iterable")
  end.

(** The merged table of [plot]: aggregated rows with the [_mp_] column. *)
Definition result_mp : Type := list (Agg.row * option pyfloat).

(** [ob.result.assign(_mp_=ob.mean_prediction)]; an object that was never
    fitted has [result = None], which has no [assign]. *)
Definition assign_mp (ob : AggregatedProfiles) : outcome result_mp :=
  match result ob with
  | None => Raise (AttributeError "'NoneType' object has no attribute 'assign'")
  | Some df => Ok (map (fun r => (r, mean_prediction ob)) df)
  end.

(** Lines 209-212. *)
Fixpoint plot_loop (objects : list pyobj) (_result_df : result_mp)
  : outcome result_mp :=
  match objects with
  | [] => Ok _result_df
  | PyAP ob :: rest =>
      obind (assign_mp ob) (fun df =>
      obind (pd_concat [Some _result_df; Some df]) (fun _result_df' =>
      plot_loop rest _result_df'))
  | _ :: _ => Raise (TypeError "Some explanations aren't of AggregatedProfiles class")
  end.

(** Lines 202-212. *)
Definition plot_merge (self : AggregatedProfiles) (objects : pyobj)
  : outcome result_mp :=
  match objects with
  | PyNone => assign_mp self
  | PyAP ob =>
      obind (assign_mp self) (fun a =>
      obind (assign_mp ob) (fun b =>
      pd_concat [Some a; Some b]))
  | _ =>
      obind (assign_mp self) (fun _result_df =>
      obind (py_iter objects) (fun obs =>
      plot_loop obs _result_df))
  end.

(** [series.dropna().unique().tolist()]: names in order of first
    appearance. *)
Fixpoint unique (l : list string) : list string :=
  match l with
  | [] => []
  | x :: r => x :: filter (fun y => negb (String.eqb x y)) (unique r)
  end.

Definition dropna_unique (col : list (option string)) : list string :=
  unique (drop_none col).

(** [np.intersect1d(a, b)]: the sorted, duplicate-free common values. *)
Fixpoint insert_sorted (x : string) (l : list string) : list string :=
  match l with
  | [] => [x]
  | y :: r => if String.leb x y then x :: l else y :: insert_sorted x r
  end.

Definition sort_strings (l : list string) : list string :=
  fold_right insert_sorted [] l.

Definition intersect1d (a b : list string) : list string :=
  sort_strings (filter (fun x => existsb (String.eqb x) b) (unique a)).

(** [''.join(variables)]. *)
Definition join (l : list string) : string :=
  fold_right String.append "" l.

(** Lines 215-222: the variables to use and the rows kept. *)
Definition variables_to_use (_result_df : result_mp)
    (variables : option (list string))
  : outcome (list string * result_mp) :=
  let all_variables :=
    dropna_unique (map (fun r => Agg._vname_ (fst r)) _result_df) in
  match variables with
  | None => Ok (all_variables, _result_df)
  | Some vs =>
      let all_variables := intersect1d all_variables vs in
      if (List.length all_variables =? 0)%nat
      then Raise (TypeError ("variables do not overlap with " ++ join vs))
      else Ok (all_variables,
               filter (fun r => isin (Agg._vname_ (fst r)) all_variables)
                 _result_df)
  end.

(** Float arithmetic on [pyfloat]; NaN propagates. *)
Definition fbin (op : Q -> Q -> Q) (a b : pyfloat) : pyfloat :=
  match a, b with
  | Fl x, Fl y => Fl (op x y)
  | _, _ => NaN
  end.

Definition fmax (a b : pyfloat) : pyfloat :=
  fbin (fun x y => if Qle_bool x y then y else x) a b.
Definition fmin (a b : pyfloat) : pyfloat :=
  fbin (fun x y => if Qle_bool x y then x else y) a b.

(** [ndarray.max()], [ndarray.min()]: a reduction of an empty array is a
    [ValueError]. *)
Definition np_reduce (op : pyfloat -> pyfloat -> pyfloat) (dl : list pyfloat)
  : outcome pyfloat :=
  match dl with
  | [] => Raise (ValueError
            "zero-size array to reduction operation which has no identity")
  | x :: r => Ok (fold_left op r x)
  end.

Definition np_max := np_reduce fmax.
Definition np_min := np_reduce fmin.

(** Lines 225-227, in the exact arithmetic of [pyfloat]: rounding and the
    infinities are not modelled. *)
Definition y_range (_result_df : result_mp) : outcome (pyfloat * pyfloat) :=
  let dl := map (fun r => Agg._yhat_ (fst r)) _result_df in
  obind (np_max dl) (fun hi =>
  obind (np_min dl) (fun lo =>
  let min_max_margin := fbin Qmult (fbin Qminus hi lo) (Fl (1 # 10)) in
  Ok (fbin Qminus lo min_max_margin, fbin Qplus hi min_max_margin))).

(** Line 232: [int(np.ceil(n / facet_ncol))], with the quotient taken
    exactly.  The float quotient has the same ceiling as long as both
    numbers are below 2^53; beyond that, and for a quotient too small for a
    float, the code's row count is not this one. *)
Definition facet_rows (n facet_ncol : Z) : outcome Z :=
  if facet_ncol =? 0
  then Raise (ZeroDivisionError "division by zero")
  else Ok (- ((- n) / facet_ncol)).

(** Lines 233-234. *)
Definition spacing (vertical_spacing : option Q) (facet_nrow : Z) : outcome Q :=
  match vertical_spacing with
  | Some v => Ok v
  | None =>
      if facet_nrow =? 0
      then Raise (ZeroDivisionError "float division by zero")
      else Ok ((3 # 10) / inject_Z facet_nrow)%Q
  end.

(** The theme's palette request, kept symbolic. *)
Inductive colors : Type :=
| get_default_colors (n : nat) (kind : string).

(** Figures are the terms of the plotting calls that build them. *)
Inductive Figure : Type :=
| px_line (data_frame : result_mp) (category_orders : list string)
    (facet_col_wrap : Z) (facet_row_spacing facet_col_spacing : Q)
    (render_mode : string) (color_discrete_sequence : colors)
| px_bar (data_frame : result_mp) (category_orders : list string)
    (facet_col_wrap : Z) (facet_row_spacing facet_col_spacing : Q)
    (color_discrete_sequence : colors)
| update_traces (fig : Figure) (line_width opacity : Q)
    (line_color : option string)
| update_axes (fig : Figure) (xaxis_type : string) (range : pyfloat * pyfloat)
| cp_plot (raw_profiles : CP.t) (variables : list string) (facet_ncol : Z)
| add_traces (fig_cp : Figure) (data_of : Figure)
| fig_update_line_plot (fig : Figure) (title title_x : string)
    (plot_height : Z) (hovermode : option string).

(** What [plot] asks of the plotting library, in order. *)
Inductive plot_call : Type :=
| Built (fig : Figure)
| Shown (fig : Figure).

Definition call (c : plot_call) : M (list plot_call) unit :=
  modify (fun log => (log ++ [c])%list).



(** Lines 241-296: the figure and the hover mode.  Numerical feature axis:
    line facets, with the raw profiles underneath when [geom] asks for them
    and a single container was retained; otherwise grouped bars. *)
Definition build_figure (self : AggregatedProfiles) (geom : pyobj)
    (_result_df : result_mp) (all_variables : list string)
    (min_max : pyfloat * pyfloat) (size alpha : Q) (facet_ncol : Z)
    (vertical_spacing horizontal_spacing : Q) (m : nat)
  : M (list plot_call) (Figure * option string) :=
  let is_x_numeric := forallb (fun r => is_num (Agg._x_ (fst r))) _result_df in
  if is_x_numeric then
    let overlay :=
      match raw_profiles self with
      | Some raw => if is_profiles geom then Some raw else None
      | None => None
      end in
    let render_mode := match overlay with Some _ => "webgl" | None => "svg" end in
    let fig :=
      update_axes
        (update_traces
           (px_line _result_df all_variables facet_ncol vertical_spacing
              horizontal_spacing render_mode (get_default_colors m "line"))
           size alpha None)
        "linear" min_max in
    call (Built fig) ;;;
    match overlay with
    | Some raw =>
        let fig := update_traces fig (2 * size) 1 None in
        let fig_cp :=
          update_traces (cp_plot raw all_variables facet_ncol)
            1 (1 # 2) (Some "#ceced9") in
        call (Built fig_cp) ;;;
        ret (add_traces fig_cp fig, None)
    | None => ret (fig, Some "x unified")
    end
  else
    let fig :=
      update_axes
        (px_bar _result_df all_variables facet_ncol vertical_spacing
           horizontal_spacing (get_default_colors m "line"))
        "category" min_max in
    call (Built fig) ;;;
    ret (fig, Some "x unified").

(** Lines 196-309. *)
Definition plot (self : AggregatedProfiles) (objects : pyobj) (geom : pyobj)
    (variables : names) (size alpha : Q) (facet_ncol : Z)
    (title title_x : string) (horizontal_spacing : Q)
    (vertical_spacing : option Q) (show : bool)
  : M (list plot_call) (option Figure) :=
  (if negb (py_in_strs geom ["aggregates"; "profiles"])
   then raise (TypeError "geom should be 'aggregates' or 'profiles'")
   else ret tt) ;;;
  let variables := normalize_names variables in
  _result_df <- lift (plot_merge self objects) ;;
  '(all_variables, _result_df) <- lift (variables_to_use _result_df variables) ;;
  min_max <- lift (y_range _result_df) ;;
  let n := Z.of_nat (List.length all_variables) in
  facet_nrow <- lift (facet_rows n facet_ncol) ;;
  vertical_spacing <- lift (spacing vertical_spacing facet_nrow) ;;
  let plot_height := 78 + 71 + facet_nrow * (280 + 60) in
  let m := List.length
             (dropna_unique (map (fun r => Agg._label_ (fst r)) _result_df)) in
  '(fig, hovermode) <-
     build_figure self geom _result_df all_variables min_max size alpha
       facet_ncol vertical_spacing horizontal_spacing m ;;
  let fig := fig_update_line_plot fig title title_x plot_height hovermode in
  if show
  then call (Shown fig) ;;; ret None
  else ret (Some fig).

(** ** The constructor *)

(** Modelled from the spec: [check_variable_type] of [checks.py], which is
    not part of the excerpt.  "Fails with a validation error if
    variable-kind is not one of the two recognized values."  The spec does
    not name the exception class; it is [ValidationError] here. *)
Definition check_variable_type (variable_type : string) : outcome unit :=
  if existsb (String.eqb variable_type) ["numerical"; "categorical"]
  then Ok tt
  else Raise (ValidationError "variable_type should be 'numerical' or 'categorical'").

(** Modelled from the spec: [check_variables] of [checks.py], which is not
    part of the excerpt.  "Normalizes scalar name arguments into
    sequences." *)
Definition check_variables (variables : names) : outcome (option (list string)) :=
  Ok (normalize_names variables).

(** Modelled from the spec: [check_groups] of [checks.py], which is not part
    of the excerpt.  "Normalizes scalar name arguments into sequences." *)
Definition check_groups (groups : names) : outcome (option (list string)) :=
  Ok (normalize_names groups).

(** Lines 68-90. *)
Definition __init__ (type : string) (variables : names) (variable_type : string)
    (groups : names) (span : Q) (center : bool) (random_state : option Z)
  : outcome AggregatedProfiles :=
  obind (check_variable_type variable_type) (fun _ =>
  obind (check_variables variables) (fun variables_ =>
  obind (check_groups groups) (fun groups_ =>
  Ok {| variable_type := variable_type;
        groups := groups_;
        type := type;
        variables := variables_;
        span := span;
        center := center;
        result := None;
        mean_prediction := None;
        raw_profiles := None;
        random_state := random_state |}))).

(** ** The helpers of [fit], modelled for the examples *)

Fixpoint lookup (k : string) (kv : list (string * cell)) : option cell :=
  match kv with
  | [] => None
  | (k', v) :: r => if String.eqb k k' then Some v else lookup k r
  end.

(** Modelled from the spec: [prepare_all_variables] of [checks.py], which is
    not part of the excerpt.  "determines the effective variable set
    (intersection of requested variables, or all available ...)".  The
    names are read off the table, [all_profiles['_vname_']] as [plot] reads
    its own at line 215, which for [None] is Python's [TypeError]; the
    spec gives this step of [fit] no other failure. *)
Definition prepare_all_variables_spec (all_profiles : option profiles)
    (variables : option (list string)) : outcome (list string) :=
  match all_profiles with
  | None => Raise (TypeError "'NoneType' object is not subscriptable")
  | Some df =>
      let all_variables := dropna_unique (map Prof._vname_ df) in
      match variables with
      | None => Ok all_variables
      | Some vs => Ok (intersect1d all_variables vs)
      end
  end.

(** A variable is numerical when every value recorded for it is a number. *)
Definition is_numeric_variable (df : profiles) (v : string) : bool :=
  forallb (fun r => match lookup v (Prof.features r) with
                    | Some c => is_num c
                    | None => true
                    end) df.

(** Modelled from the spec: [prepare_numerical_categorical] of [checks.py],
    which is not part of the excerpt.  "... restricted to those matching
    the requested numerical/categorical kind". *)
Definition prepare_numerical_categorical_spec (all_variables : list string)
    (all_profiles : option profiles) (variable_type : string)
  : outcome (profiles * list string) :=
  match all_profiles with
  | None => Raise (TypeError "'NoneType' object is not subscriptable")
  | Some df =>
      let numerical := String.eqb variable_type "numerical" in
      Ok (df, filter (fun v => Bool.eqb (is_numeric_variable df v) numerical)
                all_variables)
  end.

(** Modelled from the spec: [create_x] of [checks.py], which is not part of
    the excerpt.  The feature axis of a row is the value of the row's own
    variable ("rows keyed by (variable name, variable value, ...)"). *)
Definition create_x_spec (all_profiles : profiles) (variable_type : string)
  : outcome xprofiles :=
  Ok (map (fun r =>
             (r, match Prof._vname_ r with
                 | Some v => match lookup v (Prof.features r) with
                             | Some c => c
                             | None => CNum NaN
                             end
                 | None => CNum NaN
                 end)) all_profiles).

Definition ostring_eqb (a b : option string) : bool :=
  match a, b with
  | Some x, Some y => String.eqb x y
  | None, None => true
  | _, _ => false
  end.

Definition cell_eqb (a b : cell) : bool :=
  match a, b with
  | CNum (Fl x), CNum (Fl y) => Qeq_bool x y
  | CStr x, CStr y => String.eqb x y
  | _, _ => false
  end.

Definition bucket : Type := (option string * option string * cell)%type.

Definition bucket_of (r : Prof.row * cell) : bucket :=
  (Prof._vname_ (fst r), Prof._label_ (fst r), snd r).

Definition bucket_eqb (a b : bucket) : bool :=
  let '(va, la, xa) := a in
  let '(vb, lb, xb) := b in
  ostring_eqb va vb && ostring_eqb la lb && cell_eqb xa xb.

Fixpoint buckets (l : list bucket) : list bucket :=
  match l with
  | [] => []
  | b :: r => b :: filter (fun c => negb (bucket_eqb b c)) (buckets r)
  end.

(** Modelled from the spec: the 'partial' strategy of [aggregate_profiles]
    of [utils.py], which is not part of the excerpt, without grouping.
    "partial: plain (optionally grouped) mean of predicted values per
    (variable, value) bucket."  The kernel-weighted and the accumulated
    strategies are not modelled; the statements about [fit] are for any
    [aggregate_profiles]. *)
Definition aggregate_profiles_partial (all_profiles : xprofiles) (type : string)
    (groups : option (list string)) (center : bool) (span : Q) (verbose : bool)
  : outcome aggregated :=
  Ok (map (fun b : bucket =>
             let '(v, lab, x) := b in
             {| Agg._vname_ := v;
                Agg._label_ := lab;
                Agg._x_ := x;
                Agg._yhat_ :=
                  mean (map (fun r => Prof._yhat_ (fst r))
                          (filter (fun r => bucket_eqb b (bucket_of r))
                             all_profiles));
                Agg._ids_ := 0;
                Agg._groups_ := None |})
        (buckets (map bucket_of all_profiles))).

Definition fit_partial : pyobj -> bool -> M AggregatedProfiles unit :=
  fit prepare_all_variables_spec prepare_numerical_categorical_spec
    create_x_spec aggregate_profiles_partial.



(** ** Example data *)

Definition prow (ids : Z) (age : Q) (fare : Q) (vname : string) (yhat : Q)
  : Prof.row :=
  {| Prof.features := [("age", CNum (Fl age)); ("fare", CNum (Fl fare))];
     Prof._yhat_ := Fl yhat;
     Prof._vname_ := Some vname;
     Prof._ids_ := ids;
     Prof._label_ := Some "model" |}.

Definition orow (age : Q) (fare : Q) (yhat : Q) : Obs.row :=
  {| Obs.features := [("age", CNum (Fl age)); ("fare", CNum (Fl fare))];
     Obs._yhat_ := Fl yhat;
     Obs._label_ := Some "model" |}.

(** Two observations, each profiled over age 20 and 40. *)
Definition cp1 : CP.t :=
  {| CP.result :=
       [prow 0 20 7 "age" (1 # 4); prow 0 40 7 "age" (1 # 2);
        prow 1 20 9 "age" (3 # 4); prow 1 40 9 "age" 1];
     CP.new_observation := [orow 30 7 (2 # 5); orow 35 9 (4 # 5)] |}.

(** One more observation, profiled over fare. *)
Definition cp2 : CP.t :=
  {| CP.result := [prow 2 50 5 "fare" (1 # 5); prow 2 50 8 "fare" (3 # 5)];
     CP.new_observation := [orow 50 6 (3 # 10)] |}.

Definition fresh (variables : names) : AggregatedProfiles :=
  {| variable_type := "numerical"; groups := None; type := "partial";
     variables := normalize_names variables; span := 1 # 4; center := true;
     result := None; mean_prediction := None; raw_profiles := None;
     random_state := None |}.

(** The object after [fit(cp1)] on a fresh object. *)
Definition fitted1 : AggregatedProfiles :=
  fst (fit_partial (PyCP cp1) true (fresh NamesNone)).

(** The object after [fit([cp1, cp2])] on a fresh object. *)
Definition fitted12 : AggregatedProfiles :=
  fst (fit_partial (PyList [PyCP cp1; PyCP cp2]) true (fresh NamesNone)).

(** [plot] with the defaults of its signature for the cosmetic arguments. *)
Definition plot_defaults (self : AggregatedProfiles) (objects geom : pyobj)
    (variables : names) (show : bool) : M (list plot_call) (option Figure) :=
  plot self objects geom variables 2 1 2 "Aggregated Profiles" "prediction"
    (1 # 20) None show.

(** ** Vocabulary of the statements *)

(** The argument [fit] accepts: one container, or a list or tuple of
    containers only. *)
Definition valid_argument (ceteris_paribus : pyobj) : bool :=
  match ceteris_paribus with
  | PyCP _ => true
  | PyList l | PyTuple l => forallb isinstance_CeterisParibus l
  | _ => false
  end.

Definition containers_of (l : list pyobj) : list CP.t :=
  flat_map (fun o => match o with PyCP cp => [cp] | _ => [] end) l.

(** The containers supplied to [fit], in order. *)
Definition supplied_containers (ceteris_paribus : pyobj) : list CP.t :=
  match ceteris_paribus with
  | PyCP cp => [cp]
  | PyList l | PyTuple l => containers_of l
  | _ => []
  end.

(** The concatenation of the observation tables of all supplied
    containers. *)
Definition supplied_observations (ceteris_paribus : pyobj) : observations :=
  List.concat (map CP.new_observation (supplied_containers ceteris_paribus)).

Definition rows_of {A} (acc : option (list A)) : list A :=
  match acc with
  | None => []
  | Some df => df
  end.

(** An accumulator of the loop after the given tables were concatenated
    to it. *)
Definition acc_after {A} (acc : option (list A)) (tables : list (list A))
  : option (list A) :=
  match tables with
  | [] => acc
  | _ => Some (rows_of acc ++ List.concat tables)%list
  end.

(** Two objects with the same configuration: the constructor's arguments,
    whatever the result attributes hold. *)
Definition same_configuration (a b : AggregatedProfiles) : Prop :=
  type a = type b /\ variables a = variables b /\
  variable_type a = variable_type b /\ groups a = groups b /\
  span a = span b /\ center a = center b /\
  random_state a = random_state b.

(** The variable names available in a merged table. *)
Definition available (_result_df : result_mp) : list (option string) :=
  map (fun r => Agg._vname_ (fst r)) _result_df.

(** The row-wise merge of containers: their profile tables and their
    observation tables, each concatenated in order. *)
Definition merge_containers (cs : list CP.t) : CP.t :=
  {| CP.result := List.concat (map CP.result cs);
     CP.new_observation := List.concat (map CP.new_observation cs) |}.

(** The result rows of an object, each with the object's own mean
    prediction in the [_mp_] column. *)
Definition tagged (ob : AggregatedProfiles) : result_mp :=
  map (fun r => (r, mean_prediction ob)) (rows_of (result ob)).

(** The order [np.intersect1d] sorts names by. *)
Definition string_le (a b : string) : Prop := String.leb a b = true.

Definition fitted (o : pyobj) : Prop :=
  match o with
  | PyAP ob => result ob <> None
  | _ => True
  end.

(** * Properties *)

(** Case analysis on the value a [match] in the goal inspects. *)
Ltac case_scrutinee :=
  match goal with
  | |- context [match ?x with _ => _ end] => destruct x eqn:?; simpl
  end.

(** ** The loop and [pd.concat] *)

Lemma pd_concat_acc {A} (acc : option (list A)) (df : list A) :
  pd_concat [acc; Some df] = Ok (rows_of acc ++ df)%list.
Proof.
  destruct acc as [a|]; unfold pd_concat; simpl.
  - now rewrite app_nil_r.
  - now rewrite app_nil_r.
Qed.

Lemma acc_after_step {A} (acc : option (list A)) (df : list A) tables :
  acc_after (Some (rows_of acc ++ df)%list) tables = acc_after acc (df :: tables).
Proof.
  destruct tables as [|t ts]; simpl.
  - now rewrite app_nil_r.
  - now rewrite <- app_assoc.
Qed.

(** A sequence of containers only: the loop returns every table
    concatenated onto the accumulators, in order. *)
Lemma fit_loop_containers l : forall P Ob,
  forallb isinstance_CeterisParibus l = true ->
  fit_loop l P Ob =
    Ok (acc_after P (map CP.result (containers_of l)),
        acc_after Ob (map CP.new_observation (containers_of l))).
Proof.
  induction l as [|o l IH]; intros P Ob Hall; [reflexivity|].
  destruct o; simpl in Hall; try discriminate.
  cbn [fit_loop]. unfold copy.
  rewrite (pd_concat_acc P), (pd_concat_acc Ob). cbn [obind].
  rewrite (IH _ _ Hall), !acc_after_step. reflexivity.
Qed.

(** A sequence with an element of another class: the loop raises. *)
Lemma fit_loop_rejects l : forall P Ob,
  forallb isinstance_CeterisParibus l = false ->
  fit_loop l P Ob =
    Raise (TypeError "Some explanations aren't of CeterisParibus class").
Proof.
  induction l as [|o l IH]; intros P Ob Hall; [discriminate|].
  destruct o; simpl in Hall; try reflexivity.
  cbn [fit_loop]. unfold copy.
  rewrite (pd_concat_acc P), (pd_concat_acc Ob). cbn [obind].
  now apply IH.
Qed.

(** ** What [fit_collect] does *)

Lemma fit_collect_invalid arg self :
  valid_argument arg = false ->
  exists msg, fit_collect arg self = (self, Raise (TypeError msg)).
Proof.
  destruct arg; simpl; intros H; try discriminate;
    try (eexists; reflexivity);
    unfold lift; rewrite (fit_loop_rejects _ _ _ H); eexists; reflexivity.
Qed.

Lemma fit_collect_valid arg self :
  valid_argument arg = true ->
  fit_collect arg self =
    (match arg with
     | PyCP cp => set_raw_profiles (Some (deepcopy cp)) self
     | _ => self
     end,
     Ok (acc_after None (map CP.result (supplied_containers arg)),
         acc_after None (map CP.new_observation (supplied_containers arg)))).
Proof.
  destruct arg; simpl; intros H; try discriminate.
  - unfold bind, modify, ret, copy, deepcopy. now rewrite !app_nil_r.
  - unfold lift. now rewrite (fit_loop_containers _ _ _ H).
  - unfold lift. now rewrite (fit_loop_containers _ _ _ H).
Qed.

Section FitProperties.

Variable prepare_all_variables :
  option profiles -> option (list string) -> outcome (list string).
Variable prepare_numerical_categorical :
  list string -> option profiles -> string -> outcome (profiles * list string).
Variable create_x : profiles -> string -> outcome xprofiles.
Variable aggregate_profiles :
  xprofiles -> string -> option (list string) -> bool -> Q -> bool ->
  outcome aggregated.

Local Abbreviation fit_aggregate' :=
  (fit_aggregate prepare_all_variables prepare_numerical_categorical
     create_x aggregate_profiles).
Local Abbreviation fit' :=
  (fit prepare_all_variables prepare_numerical_categorical
     create_x aggregate_profiles).
Local Abbreviation aggregated_table' :=
  (aggregated_table prepare_all_variables prepare_numerical_categorical
     create_x aggregate_profiles).

(** The three ways lines 129-141 can end. *)
Lemma fit_aggregate_run P Ob verbose self :
  fit_aggregate' P Ob verbose self =
    match aggregated_table' self P verbose with
    | Raise e => (self, Raise e)
    | Ok r =>
        match getitem_yhat Ob with
        | Raise e => (set_result (Some r) self, Raise e)
        | Ok yhat =>
            (set_mean_prediction (Some (mean yhat)) (set_result (Some r) self),
             Ok tt)
        end
    end.
Proof.
  unfold fit_aggregate, aggregated_table, bind, lift, get, modify.
  destruct (prepare_all_variables P (variables self)) as [vs|e]; simpl;
    [|reflexivity].
  destruct (prepare_numerical_categorical vs P (variable_type self))
    as [[p vn]|e]; simpl; [|reflexivity].
  destruct (create_x _ (variable_type self)) as [xp|e]; simpl; [|reflexivity].
  destruct (aggregate_profiles xp _ _ _ _ verbose) as [r|e]; simpl;
    [|reflexivity].
  destruct (getitem_yhat Ob); reflexivity.
Qed.

Lemma fit_unfold arg verbose self :
  fit' arg verbose self =
    match fit_collect arg self with
    | (self1, Ok (P, Ob)) => fit_aggregate' P Ob verbose self1
    | (self1, Raise e) => (self1, Raise e)
    end.
Proof.
  unfold fit, bind. destruct (fit_collect arg self) as [s [[P Ob]|e]];
    reflexivity.
Qed.

Lemma aggregated_table_configuration a b P verbose :
  same_configuration a b ->
  aggregated_table' a P verbose = aggregated_table' b P verbose.
Proof.
  intros (Ht & Hv & Hvt & Hg & Hs & Hc & _).
  unfold aggregated_table. now rewrite Ht, Hv, Hvt, Hg, Hs, Hc.
Qed.

Lemma fit_invalid arg verbose self :
  valid_argument arg = false ->
  exists msg, fit' arg verbose self = (self, Raise (TypeError msg)).
Proof.
  intros H. destruct (fit_collect_invalid arg self H) as [msg Hc].
  exists msg. now rewrite fit_unfold, Hc.
Qed.

Lemma fit_valid arg verbose self :
  valid_argument arg = true ->
  fit' arg verbose self =
    fit_aggregate'
      (acc_after None (map CP.result (supplied_containers arg)))
      (acc_after None (map CP.new_observation (supplied_containers arg)))
      verbose
      (match arg with
       | PyCP cp => set_raw_profiles (Some (deepcopy cp)) self
       | _ => self
       end).
Proof. intros H. now rewrite fit_unfold, (fit_collect_valid _ _ H). Qed.

(** For any helpers, the empty list passes the class test and the call
    still fails: either a helper raises on [None], or line 141 does. *)
Lemma fit_empty_list_fails verbose self :
  exists self' e, fit' (PyList []) verbose self = (self', Raise e).
Proof.
  rewrite fit_valid by reflexivity. simpl. rewrite fit_aggregate_run.
  case_scrutinee; do 2 eexists; reflexivity.
Qed.

Lemma fit_empty_list_type_error verbose self r :
  aggregated_table' self None verbose = Ok r ->
  exists msg,
    fit' (PyList []) verbose self =
      (set_result (Some r) self, Raise (TypeError msg)).
Proof.
  intros H. rewrite fit_valid by reflexivity. simpl.
  rewrite fit_aggregate_run. unfold profiles in *. rewrite H. simpl.
  eexists; reflexivity.
Qed.

(** [self] after lines 112-127 on an accepted argument. *)
Local Abbreviation collected arg self :=
  (match arg with
   | PyCP cp => set_raw_profiles (Some (deepcopy cp)) self
   | _ => self
   end).

Local Abbreviation collected_profiles arg :=
  (acc_after None (map CP.result (supplied_containers arg))).

(** Every way a call of [fit] can end. *)
Lemma fit_outcome arg verbose self :
  (valid_argument arg = false /\
   exists msg, fit' arg verbose self = (self, Raise (TypeError msg)))
  \/
  (valid_argument arg = true /\
   exists e,
     aggregated_table' (collected arg self) (collected_profiles arg) verbose
       = Raise e /\
     fit' arg verbose self = (collected arg self, Raise e))
  \/
  (valid_argument arg = true /\ supplied_containers arg = [] /\
   exists r msg,
     aggregated_table' (collected arg self) (collected_profiles arg) verbose
       = Ok r /\
     fit' arg verbose self =
       (set_result (Some r) (collected arg self), Raise (TypeError msg)))
  \/
  (valid_argument arg = true /\ supplied_containers arg <> [] /\
   exists r,
     aggregated_table' (collected arg self) (collected_profiles arg) verbose
       = Ok r /\
     fit' arg verbose self =
       (set_mean_prediction
          (Some (mean (map Obs._yhat_ (supplied_observations arg))))
          (set_result (Some r) (collected arg self)),
        Ok tt)).
Proof.
  destruct (valid_argument arg) eqn:V.
  - right. rewrite (fit_valid _ _ _ V), fit_aggregate_run.
    destruct (aggregated_table _ _ _ _ _ _ _) as [r|e] eqn:T.
    + right. unfold supplied_observations.
      destruct (supplied_containers arg) as [|c cs] eqn:C.
      * left. repeat split. exists r. eexists. split; reflexivity.
      * right. repeat split; [discriminate|]. exists r. split; reflexivity.
    + left. split; [reflexivity|]. exists e. split; reflexivity.
  - left. split; [reflexivity|]. now apply fit_invalid.
Qed.

Lemma collected_configuration arg self :
  same_configuration (collected arg self) self.
Proof. destruct arg; repeat split. Qed.

Lemma same_configuration_trans a b c :
  same_configuration a b -> same_configuration b c -> same_configuration a c.
Proof.
  unfold same_configuration. intuition congruence.
Qed.

Lemma same_configuration_sym a b :
  same_configuration a b -> same_configuration b a.
Proof. unfold same_configuration. intuition congruence. Qed.

(** C1 (as amended).  The class test of lines 112-127 raises exactly when
    the argument is neither a container nor a list or tuple of containers
    only, and what it raises is a [TypeError] that leaves [fit] at once; in
    particular a list with an element of another class is rejected, the
    element is not skipped.  An accepted argument hands the concatenated
    tables to lines 129-141, whose outcome is the outcome of [fit]. *)
Theorem fit_type_check arg verbose self :
  (valid_argument arg = false <->
   raises_type_error (snd (fit_collect arg self)))
  /\ (valid_argument arg = false ->
      exists msg, fit' arg verbose self = (self, Raise (TypeError msg)))
  /\ (forall l x, arg = PyList l -> In x l ->
      isinstance_CeterisParibus x = false ->
      raises_type_error (snd (fit' arg verbose self)))
  /\ (valid_argument arg = true ->
      fit' arg verbose self =
        fit_aggregate' (collected_profiles arg)
          (acc_after None (map CP.new_observation (supplied_containers arg)))
          verbose (collected arg self)).
Proof.
  split; [split|split; [|split]].
  - intros H. destruct (fit_collect_invalid arg self H) as [msg E].
    exists msg. now rewrite E.
  - intros [msg E]. destruct (valid_argument arg) eqn:V; [|reflexivity].
    rewrite (fit_collect_valid _ _ V) in E. discriminate.
  - apply fit_invalid.
  - intros l x -> Hin Hx.
    assert (V : valid_argument (PyList l) = false).
    { simpl. destruct (forallb isinstance_CeterisParibus l) eqn:F;
        [|reflexivity].
      rewrite forallb_forall in F. rewrite (F _ Hin) in Hx. discriminate. }
    destruct (fit_invalid _ verbose self V) as [msg E].
    exists msg. now rewrite E.
  - apply fit_valid.
Qed.

(** C3.  After a successful [fit], [mean_prediction] is the mean of the
    [_yhat_] column over the concatenation of the observation tables of all
    supplied containers. *)
Theorem fit_mean_prediction arg verbose self self' :
  fit' arg verbose self = (self', Ok tt) ->
  mean_prediction self' =
    Some (mean (map Obs._yhat_ (supplied_observations arg))).
Proof.
  intros H.
  destruct (fit_outcome arg verbose self)
    as [(_ & msg & E) | [(_ & e & _ & E) | [(_ & _ & r & msg & _ & E)
                                           | (_ & _ & r & _ & E)]]];
    rewrite E in H; try discriminate.
  injection H as <-. reflexivity.
Qed.


(** C8.  Two objects with the same configuration, given the same input,
    end with the same result table and the same mean prediction, whatever
    their attributes held before; so does the same object fitted again. *)
Theorem fit_idempotent arg verbose a b a' :
  same_configuration a b ->
  fit' arg verbose a = (a', Ok tt) ->
  (exists b', fit' arg verbose b = (b', Ok tt) /\
              result b' = result a' /\
              mean_prediction b' = mean_prediction a')
  /\ (exists a'', fit' arg verbose a' = (a'', Ok tt) /\
                  result a'' = result a' /\
                  mean_prediction a'' = mean_prediction a').
Proof.
  intros Hab H.
  destruct (fit_outcome arg verbose a)
    as [(_ & msg & E) | [(_ & e & _ & E) | [(_ & _ & r & msg & _ & E)
                                           | (V & C & r & T & E)]]];
    rewrite E in H; try discriminate.
  injection H as <-.
  assert (again : forall c, same_configuration a c ->
            exists c', fit' arg verbose c = (c', Ok tt) /\
              result c' = Some r /\
              mean_prediction c' =
                Some (mean (map Obs._yhat_ (supplied_observations arg)))).
  { intros c Hac.
    destruct (fit_outcome arg verbose c)
      as [(V' & _) | [(_ & e & T' & _) | [(_ & C' & _)
                                         | (_ & _ & r' & T' & E')]]].
    - rewrite V in V'. discriminate.
    - rewrite (aggregated_table_configuration _ a) in T'.
      + rewrite (aggregated_table_configuration _ a) in T. 
        * rewrite T in T'. discriminate.
        * apply collected_configuration.
      + eapply same_configuration_trans; [apply collected_configuration|].
        now apply same_configuration_sym.
    - contradiction.
    - rewrite (aggregated_table_configuration _ a) in T'.
      + rewrite (aggregated_table_configuration _ a) in T.
        * rewrite T in T'. injection T' as <-.
          eexists. split; [exact E'|]. split; reflexivity.
        * apply collected_configuration.
      + eapply same_configuration_trans; [apply collected_configuration|].
        now apply same_configuration_sym. }
  split.
  - destruct (again b Hab) as (b' & Eb & Rb & Mb). exists b'. auto.
  - destruct (again
      (set_mean_prediction
         (Some (mean (map Obs._yhat_ (supplied_observations arg))))
         (set_result (Some r) (collected arg a))))
      as (a'' & Ea & Ra & Ma).
    + apply same_configuration_sym.
      eapply same_configuration_trans; [|apply collected_configuration].
      repeat split.
    + exists a''. auto.
Qed.

(** C10.  Given a list or a tuple, [fit] does not write [raw_profiles],
    however the call ends: on a freshly constructed object it stays [None],
    and after a fit with a single container it stays that container's
    copy. *)
Theorem fit_sequence_keeps_raw_profiles l arg verbose self :
  arg = PyList l \/ arg = PyTuple l ->
  raw_profiles (fst (fit' arg verbose self)) = raw_profiles self
  /\ (forall t vs vt g sp c rs,
        __init__ t vs vt g sp c rs = Ok self ->
        raw_profiles (fst (fit' arg verbose self)) = None)
  /\ (forall cp verbose0 self0,
        fit' (PyCP cp) verbose0 self0 = (self, Ok tt) ->
        raw_profiles (fst (fit' arg verbose self)) = Some (deepcopy cp)).
Proof.
  intros Harg.
  assert (K : raw_profiles (fst (fit' arg verbose self)) = raw_profiles self).
  { destruct (fit_outcome arg verbose self)
      as [(_ & msg & E) | [(_ & e & _ & E) | [(_ & _ & r & msg & _ & E)
                                             | (_ & _ & r & _ & E)]]];
      rewrite E; destruct Harg as [-> | ->]; reflexivity. }
  split; [exact K|split].
  - intros t vs vt g sp c rs Hinit. rewrite K.
    unfold __init__ in Hinit.
    destruct (check_variable_type vt); simpl in Hinit; [|discriminate].
    injection Hinit as <-. reflexivity.
  - intros cp verbose0 self0 H0. rewrite K.
    destruct (fit_outcome (PyCP cp) verbose0 self0)
      as [(_ & msg & E) | [(_ & e & _ & E) | [(_ & _ & r & msg & _ & E)
                                             | (_ & _ & r & _ & E)]]];
      rewrite E in H0; try discriminate.
    injection H0 as <-. reflexivity.
Qed.

End FitProperties.

(** A single container that is fitted successfully is retained. *)
Lemma fit_single_retains_copy pav pnc cx ap cp verbose self self' :
  fit pav pnc cx ap (PyCP cp) verbose self = (self', Ok tt) ->
  raw_profiles self' = Some (deepcopy cp).
Proof.
  intros H.
  destruct (fit_outcome pav pnc cx ap (PyCP cp) verbose self)
    as [(_ & msg & E) | [(_ & e & _ & E) | [(_ & _ & r & msg & _ & E)
                                           | (_ & _ & r & _ & E)]]];
    rewrite E in H; try discriminate.
  injection H as <-. reflexivity.
Qed.

(** ** plot *)

Lemma py_in_strs_geom geom :
  geom <> PyStr "aggregates" -> geom <> PyStr "profiles" ->
  py_in_strs geom ["aggregates"; "profiles"] = false.
Proof.
  intros Ha Hp. destruct geom; try reflexivity. simpl.
  destruct (String.eqb_spec s "aggregates") as [->|_]; [now elim Ha|].
  destruct (String.eqb_spec s "profiles") as [->|_]; [now elim Hp|].
  reflexivity.
Qed.

Lemma In_unique x l : In x (unique l) -> In x l.
Proof.
  induction l as [|y l IH]; simpl; [tauto|].
  intros [->|H]; [now left|]. right. apply IH.
  now apply filter_In in H.
Qed.

Lemma In_drop_none {A} (x : A) col : In x (drop_none col) <-> In (Some x) col.
Proof.
  induction col as [|[a|] col IH]; simpl.
  - tauto.
  - rewrite IH. split; intros [H|H]; auto; left; congruence.
  - rewrite IH. split; [auto|]. intros [H|H]; [discriminate|exact H].
Qed.

Lemma filter_none {A} (f : A -> bool) l :
  (forall x, In x l -> f x = false) -> filter f l = [].
Proof.
  induction l as [|y l IH]; simpl; intros H; [reflexivity|].
  rewrite (H y) by now left. apply IH. intros x Hx. apply H. now right.
Qed.

(** No common name: [np.intersect1d] is empty. *)
Lemma intersect1d_disjoint a b :
  (forall v, In v b -> ~ In v a) -> intersect1d a b = [].
Proof.
  intros H. unfold intersect1d. rewrite filter_none; [reflexivity|].
  intros x Hx. apply In_unique in Hx.
  destruct (existsb (String.eqb x) b) eqn:E; [|reflexivity].
  apply existsb_exists in E. destruct E as (y & Hy & Exy).
  apply String.eqb_eq in Exy. subst y. now elim (H x Hy).
Qed.

Lemma variables_to_use_disjoint df vs :
  (forall v, In v vs -> ~ In (Some v) (available df)) ->
  variables_to_use df (Some vs) =
    Raise (TypeError ("variables do not overlap with " ++ join vs)).
Proof.
  intros H. unfold variables_to_use, dropna_unique.
  rewrite intersect1d_disjoint; [reflexivity|].
  intros v Hv Hin. apply In_unique, In_drop_none in Hin. exact (H v Hv Hin).
Qed.


(** C5.  A [geom] that is neither 'aggregates' nor 'profiles' makes [plot]
    raise a [TypeError] at its first statement: nothing was asked of the
    plotting library. *)
Theorem plot_rejects_geom self objects geom variables size alpha facet_ncol
    title title_x horizontal_spacing vertical_spacing show log :
  geom <> PyStr "aggregates" -> geom <> PyStr "profiles" ->
  plot self objects geom variables size alpha facet_ncol title title_x
    horizontal_spacing vertical_spacing show log =
    (log, Raise (TypeError "geom should be 'aggregates' or 'profiles'")).
Proof.
  intros Ha Hp. unfold plot, bind, raise.
  now rewrite (py_in_strs_geom geom Ha Hp).
Qed.

(** C4.  When the variables filter is given and shares no name with the
    merged result tables, [plot] raises a [TypeError], and nothing was
    asked of the plotting library. *)
Theorem plot_disjoint_variables self objects geom variables size alpha
    facet_ncol title title_x horizontal_spacing vertical_spacing show log
    _result_df vs :
  plot_merge self objects = Ok _result_df ->
  normalize_names variables = Some vs ->
  (forall v, In v vs -> ~ In (Some v) (available _result_df)) ->
  exists msg,
    plot self objects geom variables size alpha facet_ncol title title_x
      horizontal_spacing vertical_spacing show log =
      (log, Raise (TypeError msg)).
Proof.
  intros Hm Hn Hd. unfold plot, bind, raise, ret, lift.
  destruct (negb (py_in_strs geom ["aggregates"; "profiles"]));
    [eexists; reflexivity|].
  rewrite Hm, Hn, (variables_to_use_disjoint _ _ Hd).
  eexists; reflexivity.
Qed.


(** ** The constructor *)

(** C9.  A [variable_type] that is neither 'numerical' nor 'categorical'
    makes the constructor fail with the validation error. *)
Theorem init_rejects_variable_type type variables variable_type groups span
    center random_state :
  variable_type <> "numerical" -> variable_type <> "categorical" ->
  exists msg,
    __init__ type variables variable_type groups span center random_state =
      Raise (ValidationError msg).
Proof.
  intros Hn Hc. unfold __init__, check_variable_type. simpl.
  destruct (String.eqb_spec variable_type "numerical") as [->|_];
    [now elim Hn|].
  destruct (String.eqb_spec variable_type "categorical") as [->|_];
    [now elim Hc|].
  eexists; reflexivity.
Qed.

(** ** The statements at concrete inputs *)

Lemma fit_type_check_witness :
  raises_type_error
    (snd (fit_partial (PyList [PyCP cp1; PyInt 3]) true (fresh NamesNone))).
Proof.
  apply (proj1 (proj2 (proj2
           (fit_type_check prepare_all_variables_spec
              prepare_numerical_categorical_spec create_x_spec
              aggregate_profiles_partial
              (PyList [PyCP cp1; PyInt 3]) true (fresh NamesNone))))
           [PyCP cp1; PyInt 3] (PyInt 3)).
  - reflexivity.
  - simpl. auto.
  - reflexivity.
Defined.

(** C1, as stated, fails: the empty list is a list of containers only, and
    [fit] raises a [TypeError] on it. *)
Lemma fit_type_error_on_accepted_argument :
  ~ (raises_type_error
       (snd (fit_partial (PyList []) true (fresh NamesNone)))
     <-> valid_argument (PyList []) = false).
Proof.
  intros [H _].
  assert (R : raises_type_error
                (snd (fit_partial (PyList []) true (fresh NamesNone)))).
  { eexists. reflexivity. }
  apply H in R. discriminate.
Qed.

(** C2 at the failing input: an object fitted with one container and then
    with a list of two still holds the copy of the first container. *)
Theorem fit_sequence_after_single_stale_raw_profiles :
  snd (fit_partial (PyCP cp1) true (fresh NamesNone)) = Ok tt
  /\ snd (fit_partial (PyList [PyCP cp1; PyCP cp2]) true fitted1) = Ok tt
  /\ raw_profiles
       (fst (fit_partial (PyList [PyCP cp1; PyCP cp2]) true fitted1))
     = Some cp1
  /\ raw_profiles
       (fst (fit_partial (PyList [PyCP cp1; PyCP cp2]) true
               (fresh NamesNone)))
     = None.
Proof. repeat split; vm_compute; reflexivity. Qed.

Lemma fit_mean_prediction_witness :
  mean_prediction
    (fst (fit_partial (PyList [PyCP cp1; PyCP cp2]) true (fresh NamesNone)))
  = Some (mean (map Obs._yhat_
                  (CP.new_observation cp1 ++ CP.new_observation cp2))).
Proof.
  apply (fit_mean_prediction prepare_all_variables_spec
           prepare_numerical_categorical_spec create_x_spec
           aggregate_profiles_partial
           (PyList [PyCP cp1; PyCP cp2]) true (fresh NamesNone)).
  reflexivity.
Defined.

Lemma plot_disjoint_variables_witness :
  exists msg,
    plot_defaults fitted1 PyNone (PyStr "aggregates") (NamesStr "fare") true []
    = ([], Raise (TypeError msg)).
Proof.
  apply (plot_disjoint_variables fitted1 PyNone (PyStr "aggregates")
           (NamesStr "fare") 2 1 2 "Aggregated Profiles" "prediction"
           (1 # 20) None true []
           (map (fun r => (r, mean_prediction fitted1))
              (rows_of (result fitted1)))
           ["fare"]).
  - reflexivity.
  - reflexivity.
  - intros v [<-|[]]. vm_compute. intuition discriminate.
Defined.

Lemma plot_rejects_geom_witness :
  plot_defaults fitted1 PyNone (PyStr "points") NamesNone true []
  = ([], Raise (TypeError "geom should be 'aggregates' or 'profiles'")).
Proof.
  apply (plot_rejects_geom fitted1 PyNone (PyStr "points") NamesNone 2 1 2
           "Aggregated Profiles" "prediction" (1 # 20) None true []);
    discriminate.
Defined.




Lemma fit_idempotent_witness :
  exists b',
    fit_partial (PyCP cp1) true fitted1 = (b', Ok tt)
    /\ result b' = result fitted1
    /\ mean_prediction b' = mean_prediction fitted1.
Proof.
  apply (fit_idempotent prepare_all_variables_spec
           prepare_numerical_categorical_spec create_x_spec
           aggregate_profiles_partial
           (PyCP cp1) true (fresh NamesNone) fitted1 fitted1).
  - repeat split.
  - reflexivity.
Defined.

Lemma fit_sequence_keeps_raw_profiles_witness :
  raw_profiles (fst (fit_partial (PyTuple [PyCP cp2]) true fitted1))
  = raw_profiles fitted1.
Proof.
  apply (fit_sequence_keeps_raw_profiles prepare_all_variables_spec
           prepare_numerical_categorical_spec create_x_spec
           aggregate_profiles_partial [PyCP cp2]).
  now right.
Defined.

Lemma init_rejects_variable_type_witness :
  exists msg,
    __init__ "partial" NamesNone "ordinal" NamesNone (1 # 4) true None
    = Raise (ValidationError msg).
Proof.
  apply init_rejects_variable_type; discriminate.
Defined.

(** * Further properties of [fit] *)

Section FitFurther.

Variable prepare_all_variables :
  option profiles -> option (list string) -> outcome (list string).
Variable prepare_numerical_categorical :
  list string -> option profiles -> string -> outcome (profiles * list string).
Variable create_x : profiles -> string -> outcome xprofiles.
Variable aggregate_profiles :
  xprofiles -> string -> option (list string) -> bool -> Q -> bool ->
  outcome aggregated.

Local Abbreviation fit' :=
  (fit prepare_all_variables prepare_numerical_categorical
     create_x aggregate_profiles).
Local Abbreviation fit_aggregate' :=
  (fit_aggregate prepare_all_variables prepare_numerical_categorical
     create_x aggregate_profiles).
Local Abbreviation aggregated_table' :=
  (aggregated_table prepare_all_variables prepare_numerical_categorical
     create_x aggregate_profiles).

Lemma set_raw_profiles_configuration v self :
  same_configuration (set_raw_profiles v self) self.
Proof. repeat split. Qed.

(** Lines 129-141 read the configuration only: the outcome is the same on
    two objects with the same configuration, and so are the attributes the
    lines write. *)
Lemma fit_aggregate_configuration P Ob verbose a b :
  same_configuration a b ->
  snd (fit_aggregate' P Ob verbose a) = snd (fit_aggregate' P Ob verbose b)
  /\ (snd (fit_aggregate' P Ob verbose a) = Ok tt ->
      result (fst (fit_aggregate' P Ob verbose a)) =
        result (fst (fit_aggregate' P Ob verbose b)) /\
      mean_prediction (fst (fit_aggregate' P Ob verbose a)) =
        mean_prediction (fst (fit_aggregate' P Ob verbose b))).
Proof.
  intros Hab. rewrite !fit_aggregate_run.
  rewrite (aggregated_table_configuration _ _ _ _ a b P verbose Hab).
  destruct (aggregated_table _ _ _ _ b P verbose) as [r|e]; simpl.
  - destruct (getitem_yhat Ob); simpl; split; try reflexivity;
      intros; try discriminate; split; reflexivity.
  - split; [reflexivity|discriminate].
Qed.

Lemma fit_aggregate_frame P Ob verbose self :
  same_configuration (fst (fit_aggregate' P Ob verbose self)) self
  /\ raw_profiles (fst (fit_aggregate' P Ob verbose self)) = raw_profiles self.
Proof.
  rewrite fit_aggregate_run.
  destruct (aggregated_table _ _ _ _ self P verbose) as [r|e]; simpl.
  - destruct (getitem_yhat Ob); simpl; repeat split.
  - repeat split.
Qed.

(** X1.  [fit] never touches the configuration: the type, the variables,
    the variable type, the groups, the span, the centering flag and the
    seed are after the call what they were before, however it ends. *)
Theorem fit_keeps_configuration arg verbose self :
  same_configuration (fst (fit' arg verbose self)) self.
Proof.
  destruct (fit_outcome prepare_all_variables prepare_numerical_categorical
              create_x aggregate_profiles arg verbose self)
    as [(_ & msg & E) | [(_ & e & _ & E) | [(_ & _ & r & msg & _ & E)
                                           | (_ & _ & r & _ & E)]]];
    rewrite E; simpl; destruct arg; repeat split.
Qed.

(** X2.  An empty list or tuple never fits: the call raises, leaving
    [raw_profiles] and [mean_prediction] alone; either nothing was written
    at all, or the helpers went through on [None], [result] was written,
    and the error is the [TypeError] of line 141. *)
Theorem fit_empty_sequence_raises arg verbose self :
  arg = PyList [] \/ arg = PyTuple [] ->
  exists self' e,
    fit' arg verbose self = (self', Raise e)
    /\ raw_profiles self' = raw_profiles self
    /\ mean_prediction self' = mean_prediction self
    /\ (self' = self \/
        exists r msg, self' = set_result (Some r) self /\ e = TypeError msg).
Proof.
  intros Harg.
  destruct (fit_outcome prepare_all_variables prepare_numerical_categorical
              create_x aggregate_profiles arg verbose self)
    as [(V & _) | [(_ & e & _ & E) | [(_ & _ & r & msg & _ & E)
                                     | (_ & C & _)]]].
  - destruct Harg as [-> | ->]; discriminate.
  - exists self, e. destruct Harg as [-> | ->]; rewrite E; auto.
  - exists (set_result (Some r) self), (TypeError msg).
    destruct Harg as [-> | ->]; rewrite E;
      repeat split; right; exists r, msg; auto.
  - destruct Harg as [-> | ->]; now elim C.
Qed.

(** X3.  One container and the list holding just that container are
    fitted alike: same outcome, same result table, same mean prediction.
    They differ in [raw_profiles] only, which the first call sets to the
    container's copy and the second leaves as it was. *)
Theorem fit_single_or_singleton cp verbose self :
  snd (fit' (PyCP cp) verbose self) = snd (fit' (PyList [PyCP cp]) verbose self)
  /\ raw_profiles (fst (fit' (PyCP cp) verbose self)) = Some (deepcopy cp)
  /\ raw_profiles (fst (fit' (PyList [PyCP cp]) verbose self))
     = raw_profiles self
  /\ (snd (fit' (PyCP cp) verbose self) = Ok tt ->
      result (fst (fit' (PyCP cp) verbose self)) =
        result (fst (fit' (PyList [PyCP cp]) verbose self)) /\
      mean_prediction (fst (fit' (PyCP cp) verbose self)) =
        mean_prediction (fst (fit' (PyList [PyCP cp]) verbose self))).
Proof.
  rewrite (fit_valid _ _ _ _ (PyCP cp)) by reflexivity.
  rewrite (fit_valid _ _ _ _ (PyList [PyCP cp])) by reflexivity.
  cbn [supplied_containers containers_of flat_map app].
  pose proof (fit_aggregate_configuration
    (acc_after None (map CP.result [cp]))
    (acc_after None (map CP.new_observation [cp])) verbose
    (set_raw_profiles (Some (deepcopy cp)) self) self
    (set_raw_profiles_configuration _ self)) as [Hout Hres].
  pose proof (fit_aggregate_frame
    (acc_after None (map CP.result [cp]))
    (acc_after None (map CP.new_observation [cp])) verbose
    (set_raw_profiles (Some (deepcopy cp)) self)) as [_ Hr1].
  pose proof (fit_aggregate_frame
    (acc_after None (map CP.result [cp]))
    (acc_after None (map CP.new_observation [cp])) verbose self) as [_ Hr2].
  repeat split; auto; apply Hres; assumption.
Qed.

Lemma containers_of_map cs : containers_of (map PyCP cs) = cs.
Proof.
  induction cs as [|c cs IH]; [reflexivity|].
  unfold containers_of in *. simpl. now rewrite IH.
Qed.

Lemma forallb_map_PyCP cs :
  forallb isinstance_CeterisParibus (map PyCP cs) = true.
Proof. induction cs; simpl; auto. Qed.

(** X4.  Fitting several containers is fitting their row-wise merge: a
    non-empty list of containers and the one-element list of the merged
    container give the same final object and the same outcome. *)
Theorem fit_merged_containers cs verbose self :
  cs <> [] ->
  fit' (PyList (map PyCP cs)) verbose self =
  fit' (PyList [PyCP (merge_containers cs)]) verbose self.
Proof.
  intros Hne.
  rewrite (fit_valid _ _ _ _ (PyList (map PyCP cs)))
    by (simpl; apply forallb_map_PyCP).
  rewrite (fit_valid _ _ _ _ (PyList [PyCP (merge_containers cs)]))
    by reflexivity.
  cbn [supplied_containers]. rewrite containers_of_map.
  cbn [containers_of flat_map app map merge_containers CP.result
         CP.new_observation].
  destruct cs as [|c cs]; [now elim Hne|].
  cbn [acc_after map rows_of app List.concat].
  now rewrite !app_nil_r.
Qed.

(** X5.  [fit] returns exactly when the argument is a container or a
    non-empty list or tuple of containers and the helpers of lines 129-139
    return a table for the concatenated profiles; both result attributes
    are then set. *)
Theorem fit_returns_iff arg verbose self :
  (exists self', fit' arg verbose self = (self', Ok tt))
  <->
  (valid_argument arg = true /\ supplied_containers arg <> [] /\
   exists r,
     aggregated_table' self
       (acc_after None (map CP.result (supplied_containers arg))) verbose
     = Ok r).
Proof.
  assert (Hcfg : forall P,
    aggregated_table' (match arg with
                       | PyCP cp => set_raw_profiles (Some (deepcopy cp)) self
                       | _ => self
                       end) P verbose
    = aggregated_table' self P verbose).
  { intros P. apply aggregated_table_configuration.
    destruct arg; repeat split. }
  destruct (fit_outcome prepare_all_variables prepare_numerical_categorical
              create_x aggregate_profiles arg verbose self)
    as [(V & msg & E) | [(V & e & T & E) | [(V & C & r & msg & T & E)
                                           | (V & C & r & T & E)]]];
    rewrite E; try rewrite Hcfg in T.
  - split; [intros [s H]; discriminate|]. intros (V' & _).
    rewrite V in V'. discriminate.
  - split; [intros [s H]; discriminate|]. intros (_ & _ & r & T').
    rewrite T in T'. discriminate.
  - split; [intros [s H]; discriminate|]. intros (_ & C' & _). now elim C'.
  - split; [|eexists; reflexivity]. intros _. repeat split; auto.
    now exists r.
Qed.

(** X6.  What a successful [fit] leaves is what [plot] starts from: with
    no other objects, the merged table of [plot] is the fitted result,
    every row tagged with the mean of the supplied observations'
    predictions. *)
Theorem fit_then_plot_merge arg verbose self self' :
  fit' arg verbose self = (self', Ok tt) ->
  exists rows,
    result self' = Some rows /\
    plot_merge self' PyNone =
      Ok (map (fun r =>
                 (r, Some (mean (map Obs._yhat_ (supplied_observations arg)))))
            rows).
Proof.
  intros H.
  destruct (fit_outcome prepare_all_variables prepare_numerical_categorical
              create_x aggregate_profiles arg verbose self)
    as [(_ & msg & E) | [(_ & e & _ & E) | [(_ & _ & r & msg & _ & E)
                                           | (_ & _ & r & _ & E)]]];
    rewrite E in H; try discriminate.
  injection H as <-. exists r. split; reflexivity.
Qed.

End FitFurther.

(** * Further properties of [plot] *)

Lemma geom_accepted geom :
  geom = PyStr "aggregates" \/ geom = PyStr "profiles" ->
  py_in_strs geom ["aggregates"; "profiles"] = true.
Proof. intros [-> | ->]; reflexivity. Qed.

Lemma plot_merge_unfitted self objects :
  result self = None ->
  plot_merge self objects =
    Raise (AttributeError "'NoneType' object has no attribute 'assign'").
Proof.
  intros H. destruct objects; unfold plot_merge, assign_mp; now rewrite H.
Qed.

Lemma assign_mp_fitted ob :
  result ob <> None -> assign_mp ob = Ok (tagged ob).
Proof.
  unfold assign_mp, tagged. destruct (result ob); [reflexivity|]. now intros [].
Qed.

(** [pd.concat] of two frames in the goal: the rows of both. *)
Ltac concat_two :=
  unfold pd_concat; cbn [drop_none List.concat obind]; rewrite ?app_nil_r.

(** What [plot] does once the merge has failed. *)
Lemma plot_merge_raises self objects geom variables size alpha facet_ncol
    title title_x horizontal_spacing vertical_spacing show log e :
  py_in_strs geom ["aggregates"; "profiles"] = true ->
  plot_merge self objects = Raise e ->
  plot self objects geom variables size alpha facet_ncol title title_x
    horizontal_spacing vertical_spacing show log = (log, Raise e).
Proof.
  intros Hg Hm. unfold plot, bind, raise, ret, lift. now rewrite Hg, Hm.
Qed.

(** [plot] reads [objects] through the merge only. *)
Lemma plot_merge_ext self objects objects' geom variables size alpha
    facet_ncol title title_x horizontal_spacing vertical_spacing show log :
  plot_merge self objects = plot_merge self objects' ->
  plot self objects geom variables size alpha facet_ncol title title_x
    horizontal_spacing vertical_spacing show log =
  plot self objects' geom variables size alpha facet_ncol title title_x
    horizontal_spacing vertical_spacing show log.
Proof. intros H. unfold plot, bind, lift. now rewrite H. Qed.

(** X7.  An object that was never fitted cannot be plotted: with a valid
    [geom], [plot] raises [AttributeError] on [self.result], whatever the
    other arguments are, and builds nothing.  This is the state the
    constructor leaves. *)
Theorem plot_before_fit self objects geom variables size alpha facet_ncol
    title title_x horizontal_spacing vertical_spacing show log :
  geom = PyStr "aggregates" \/ geom = PyStr "profiles" ->
  (result self = None \/
   exists t vs vt g sp c rs, __init__ t vs vt g sp c rs = Ok self) ->
  plot self objects geom variables size alpha facet_ncol title title_x
    horizontal_spacing vertical_spacing show log =
    (log, Raise (AttributeError "'NoneType' object has no attribute 'assign'")).
Proof.
  intros Hg Hs. apply plot_merge_raises; [now apply geom_accepted|].
  apply plot_merge_unfitted.
  destruct Hs as [H | (t & vs & vt & g & sp & c & rs & H)]; [exact H|].
  unfold __init__ in H.
  destruct (check_variable_type vt); simpl in H; [|discriminate].
  injection H as <-. reflexivity.
Qed.

Lemma plot_loop_rejects l : forall df x,
  In x l -> (forall ob, x <> PyAP ob) -> Forall fitted l ->
  plot_loop l df =
    Raise (TypeError "Some explanations aren't of AggregatedProfiles class").
Proof.
  induction l as [|o l IH]; intros df x Hin Hx Hf; [destruct Hin|].
  inversion Hf as [|? ? Ho Hl]; subst.
  destruct o; try reflexivity.
  destruct Hin as [<-|Hin]; [now elim (Hx ap)|].
  cbn [plot_loop]. rewrite (assign_mp_fitted ap Ho). cbn [obind].
  concat_two. now apply (IH _ x).
Qed.

(** X8.  A list or tuple of objects with an element that is not an
    [AggregatedProfiles] makes [plot] raise a [TypeError]; the element is
    not skipped, and nothing is built.  (Objects ahead of it must have
    been fitted, or their missing result raises first.) *)
Theorem plot_rejects_foreign_object self l objects x geom variables size alpha
    facet_ncol title title_x horizontal_spacing vertical_spacing show log :
  objects = PyList l \/ objects = PyTuple l ->
  result self <> None ->
  In x l -> (forall ob, x <> PyAP ob) -> Forall fitted l ->
  exists msg,
    plot self objects geom variables size alpha facet_ncol title title_x
      horizontal_spacing vertical_spacing show log =
      (log, Raise (TypeError msg)).
Proof.
  intros Ho Hs Hin Hx Hf.
  destruct (py_in_strs geom ["aggregates"; "profiles"]) eqn:G.
  - eexists. apply plot_merge_raises; [exact G|].
    destruct Ho as [-> | ->]; unfold plot_merge;
      rewrite (assign_mp_fitted self Hs); cbn [obind py_iter];
      now apply (plot_loop_rejects l _ x).
  - eexists. unfold plot, bind, raise. rewrite G. reflexivity.
Qed.

Lemma obind_Ok {A} (c : outcome A) : obind c Ok = c.
Proof. destruct c; reflexivity. Qed.

(** X9.  One extra object and the list holding just that object are
    plotted alike, although two branches handle them; an empty list or
    tuple of objects is no object at all. *)
Theorem plot_single_or_singleton self ob geom variables size alpha facet_ncol
    title title_x horizontal_spacing vertical_spacing show log :
  plot self (PyAP ob) geom variables size alpha facet_ncol title title_x
    horizontal_spacing vertical_spacing show log =
  plot self (PyList [PyAP ob]) geom variables size alpha facet_ncol title
    title_x horizontal_spacing vertical_spacing show log
  /\
  plot self (PyList []) geom variables size alpha facet_ncol title title_x
    horizontal_spacing vertical_spacing show log =
  plot self PyNone geom variables size alpha facet_ncol title title_x
    horizontal_spacing vertical_spacing show log
  /\
  plot self (PyTuple []) geom variables size alpha facet_ncol title title_x
    horizontal_spacing vertical_spacing show log =
  plot self PyNone geom variables size alpha facet_ncol title title_x
    horizontal_spacing vertical_spacing show log.
Proof.
  split; [|split]; apply plot_merge_ext; unfold plot_merge; cbn [py_iter].
  - destruct (assign_mp self) as [a|]; [|reflexivity]. cbn [obind plot_loop].
    destruct (assign_mp ob) as [b|]; [|reflexivity]. cbn [obind].
    concat_two. reflexivity.
  - cbn [plot_loop]. apply obind_Ok.
  - cbn [plot_loop]. apply obind_Ok.
Qed.

Lemma plot_loop_fitted obs : forall df,
  Forall (fun ob => result ob <> None) obs ->
  plot_loop (map PyAP obs) df =
    Ok (df ++ List.concat (map tagged obs))%list.
Proof.
  induction obs as [|ob obs IH]; intros df Hf; simpl.
  - now rewrite app_nil_r.
  - inversion Hf as [|? ? Ho Hl]; subst.
    rewrite (assign_mp_fitted ob Ho). cbn [obind].
    concat_two.
    rewrite (IH _ Hl). now rewrite app_assoc.
Qed.

Lemma plot_loop_unfitted obs : forall df ob,
  In ob obs -> result ob = None ->
  plot_loop (map PyAP obs) df =
    Raise (AttributeError "'NoneType' object has no attribute 'assign'").
Proof.
  induction obs as [|o obs IH]; intros df ob Hin Hn; [destruct Hin|].
  simpl. unfold assign_mp at 1. destruct (result o) as [rows|] eqn:R.
  - cbn [obind]. concat_two.
    destruct Hin as [->|Hin]; [congruence|]. now apply (IH _ ob).
  - reflexivity.
Qed.

(** X10.  The merged table of [plot] is the rows of [self] followed by the
    rows of each further object in the order given, every row tagged with
    the mean prediction of the object it comes from; one object without a
    result makes the merge raise [AttributeError]. *)
Theorem plot_merge_rows self obs :
  result self <> None ->
  (Forall (fun ob => result ob <> None) obs ->
   plot_merge self (PyList (map PyAP obs)) =
     Ok (tagged self ++ List.concat (map tagged obs))%list)
  /\
  (forall ob, In ob obs -> result ob = None ->
   plot_merge self (PyList (map PyAP obs)) =
     Raise (AttributeError "'NoneType' object has no attribute 'assign'")).
Proof.
  intros Hs. unfold plot_merge. rewrite (assign_mp_fitted self Hs).
  cbn [obind py_iter]. split.
  - apply plot_loop_fitted.
  - intros ob. apply plot_loop_unfitted.
Qed.

(** ** The variables to use *)

Lemma existsb_eqb_In s l : existsb (String.eqb s) l = true <-> In s l.
Proof.
  rewrite existsb_exists. split.
  - intros (y & Hy & E). apply String.eqb_eq in E. now subst.
  - intros H. exists s. split; [exact H|apply String.eqb_refl].
Qed.

Lemma In_unique_iff x l : In x (unique l) <-> In x l.
Proof.
  split; [apply In_unique|].
  induction l as [|y l IH]; simpl; [tauto|].
  intros [->|H]; [now left|].
  destruct (String.eqb_spec y x) as [->|Hne]; [now left|].
  right. apply filter_In. split; [now apply IH|].
  destruct (String.eqb_spec y x); [contradiction|reflexivity].
Qed.

Lemma NoDup_unique l : NoDup (unique l).
Proof.
  induction l as [|y l IH]; simpl; constructor.
  - intros H. apply filter_In in H. destruct H as [_ H].
    now rewrite String.eqb_refl in H.
  - now apply NoDup_filter.
Qed.

Lemma In_insert_sorted z x l : In z (insert_sorted x l) <-> z = x \/ In z l.
Proof.
  induction l as [|y l IH]; simpl.
  - intuition.
  - destruct (String.leb x y); simpl; [intuition|].
    rewrite IH. intuition.
Qed.

Lemma NoDup_insert_sorted x l :
  ~ In x l -> NoDup l -> NoDup (insert_sorted x l).
Proof.
  induction l as [|y l IH]; simpl; intros Hx Hl.
  - constructor; [tauto|constructor].
  - inversion Hl as [|? ? Hy Hl']; subst.
    destruct (String.leb x y).
    + constructor; [simpl; tauto|exact Hl].
    + constructor.
      * rewrite In_insert_sorted. intros [->|H]; tauto.
      * apply IH; tauto.
Qed.

Lemma Sorted_insert_sorted x l :
  Sorted string_le l -> Sorted string_le (insert_sorted x l).
Proof.
  induction l as [|y l IH]; simpl; intros Hl.
  - repeat constructor.
  - inversion Hl as [|? ? Hl' Hd]; subst.
    destruct (String.leb x y) eqn:E.
    + constructor; [exact Hl|]. constructor. exact E.
    + constructor; [now apply IH|].
      assert (Hyx : string_le y x).
      { destruct (String.leb_total x y) as [H|H]; [congruence|exact H]. }
      destruct l as [|z l]; simpl.
      * now constructor.
      * destruct (String.leb x z); constructor; [exact Hyx|].
        now inversion Hd.
Qed.

Lemma sort_strings_spec l :
  (forall x, In x (sort_strings l) <-> In x l)
  /\ (NoDup l -> NoDup (sort_strings l))
  /\ Sorted string_le (sort_strings l).
Proof.
  unfold sort_strings. induction l as [|y l (IHin & IHnd & IHs)]; simpl.
  - repeat split; auto; constructor.
  - split; [|split].
    + intros x. rewrite In_insert_sorted, IHin. intuition.
    + intros H. inversion H; subst.
      apply NoDup_insert_sorted; [now rewrite IHin|auto].
    + now apply Sorted_insert_sorted.
Qed.

(** [np.intersect1d]: the common names, once each, in order. *)
Lemma intersect1d_spec a b :
  (forall x, In x (intersect1d a b) <-> In x a /\ In x b)
  /\ NoDup (intersect1d a b)
  /\ Sorted string_le (intersect1d a b).
Proof.
  unfold intersect1d.
  destruct (sort_strings_spec
              (filter (fun x => existsb (String.eqb x) b) (unique a)))
    as (Hin & Hnd & Hs).
  split; [|split].
  - intros x. rewrite Hin, filter_In, In_unique_iff, existsb_eqb_In. tauto.
  - apply Hnd, NoDup_filter, NoDup_unique.
  - exact Hs.
Qed.

Lemma isin_In v values :
  isin v values = true <-> exists s, v = Some s /\ In s values.
Proof.
  destruct v as [s|]; simpl.
  - rewrite existsb_eqb_In. split; [eauto|]. now intros (s' & [= ->] & H).
  - split; [discriminate|]. now intros (s & H & _).
Qed.

(** X11.  The variables [plot] uses: every available name once (of those
    the filter names, if there is a filter), and with a filter in sorted
    order; the rows kept are exactly the rows whose [_vname_] the filter
    names, and all rows when there is no filter. *)
Theorem variables_to_use_selection df variables av kept :
  variables_to_use df variables = Ok (av, kept) ->
  NoDup av
  /\ (forall x, In x av <->
        In (Some x) (available df) /\
        match variables with None => True | Some vs => In x vs end)
  /\ kept = match variables with
            | None => df
            | Some vs => filter (fun r => isin (Agg._vname_ (fst r)) vs) df
            end
  /\ (variables <> None -> av <> [] /\ Sorted string_le av).
Proof.
  unfold variables_to_use, dropna_unique. fold (available df).
  destruct variables as [vs|].
  - destruct (intersect1d_spec (unique (drop_none (available df))) vs)
      as (Hin & Hnd & Hs).
    destruct (intersect1d _ vs) as [|a0 l0] eqn:I; simpl; [discriminate|].
    intros [= <- <-]. split; [exact Hnd|]. split; [|split].
    + intros x. rewrite Hin, In_unique_iff, In_drop_none. tauto.
    + apply filter_ext_in. intros r Hr.
      apply Bool.eq_iff_eq_true. rewrite !isin_In.
      split; intros (s & Es & Hi); exists s; (split; [exact Es|]).
      * now apply Hin in Hi.
      * apply Hin. split; [|exact Hi].
        apply In_unique_iff, In_drop_none. rewrite <- Es.
        unfold available. now apply (in_map (fun r => Agg._vname_ (fst r))).
    + intros _. split; [discriminate|exact Hs].
  - intros [= <- <-]. split; [apply NoDup_unique|]. split; [|split].
    + intros x. rewrite In_unique_iff, In_drop_none. tauto.
    + reflexivity.
    + now intros [].
Qed.

(** X12.  The selection fails in one case only: a filter is given and it
    names nothing that is available. *)
Theorem variables_to_use_raises_iff df variables :
  (exists e, variables_to_use df variables = Raise e)
  <->
  (exists vs, variables = Some vs /\
              forall v, In v vs -> ~ In (Some v) (available df)).
Proof.
  split.
  - intros [e H]. destruct variables as [vs|]; [|discriminate].
    exists vs. split; [reflexivity|]. intros v Hv Ha.
    unfold variables_to_use, dropna_unique in H. fold (available df) in H.
    destruct (intersect1d_spec (unique (drop_none (available df))) vs)
      as (Hin & _).
    destruct (intersect1d _ vs) as [|a0 l0]; simpl in H; [|discriminate].
    apply (Hin v). split; [|exact Hv]. now apply In_unique_iff, In_drop_none.
  - intros (vs & -> & Hd). eexists. now apply variables_to_use_disjoint.
Qed.

(** ** The grid and the axis range *)

Lemma ceil_div_bounds n k :
  0 < k -> (- ((- n) / k) - 1) * k < n <= - ((- n) / k) * k.
Proof.
  intros Hk.
  pose proof (Z.div_mod (- n) k ltac:(lia)) as Hdm.
  pose proof (Z.mod_pos_bound (- n) k Hk) as Hb.
  nia.
Qed.

(** X13.  With a positive number of columns the grid has just enough rows:
    [facet_rows] returns the least row count whose cells hold all [n]
    facets.  Both numbers are below 2^53, where the float quotient of line
    232 has the ceiling of the exact one. *)
Theorem facet_rows_enough n facet_ncol :
  0 < facet_ncol < 2 ^ 53 -> 0 <= n < 2 ^ 53 ->
  exists facet_nrow,
    facet_rows n facet_ncol = Ok facet_nrow
    /\ 0 <= facet_nrow
    /\ (facet_nrow - 1) * facet_ncol < n <= facet_nrow * facet_ncol.
Proof.
  intros [Hk _] [Hn _]. unfold facet_rows.
  destruct (Z.eqb_spec facet_ncol 0) as [->|_]; [lia|].
  eexists. split; [reflexivity|].
  pose proof (ceil_div_bounds n facet_ncol Hk). split; [nia|lia].
Qed.

Lemma y_range_nonempty df :
  df <> [] -> exists min_max, y_range df = Ok min_max.
Proof.
  destruct df as [|r df]; [now intros []|]. intros _.
  unfold y_range, np_max, np_min, np_reduce. simpl. eexists; reflexivity.
Qed.

(** X14.  [facet_ncol = 0] is a [ZeroDivisionError]: once the table is
    merged, the variables are selected and rows are left, [plot] raises it
    before anything is built. *)
Theorem plot_zero_columns self objects geom variables size alpha title title_x
    horizontal_spacing vertical_spacing show log df av kept :
  geom = PyStr "aggregates" \/ geom = PyStr "profiles" ->
  plot_merge self objects = Ok df ->
  variables_to_use df (normalize_names variables) = Ok (av, kept) ->
  kept <> [] ->
  plot self objects geom variables size alpha 0 title title_x
    horizontal_spacing vertical_spacing show log =
    (log, Raise (ZeroDivisionError "division by zero")).
Proof.
  intros Hg Hm Hv Hk. unfold plot, bind, raise, ret, lift.
  rewrite (geom_accepted geom Hg), Hm, Hv. cbn [negb].
  destruct (y_range_nonempty kept Hk) as [mm ->]. reflexivity.
Qed.

(** ** What [geom] changes *)

Lemma build_figure_without_raw self g df av mm size alpha ncol vsp hsp m :
  raw_profiles self = None ->
  build_figure self g df av mm size alpha ncol vsp hsp m =
  build_figure self (PyStr "aggregates") df av mm size alpha ncol vsp hsp m.
Proof. intros H. unfold build_figure. now rewrite H. Qed.

Lemma build_figure_aggregates v self df av mm size alpha ncol vsp hsp m :
  build_figure (set_raw_profiles v self) (PyStr "aggregates") df av mm size
    alpha ncol vsp hsp m =
  build_figure self (PyStr "aggregates") df av mm size alpha ncol vsp hsp m.
Proof.
  unfold build_figure. simpl. destruct v, (raw_profiles self); reflexivity.
Qed.

Lemma plot_merge_set_raw_profiles v self objects :
  plot_merge (set_raw_profiles v self) objects = plot_merge self objects.
Proof. destruct objects; reflexivity. Qed.

(** The stages of [plot] ahead of the figure, on two calls that agree on
    them. *)
Ltac plot_stages :=
  unfold plot, bind, raise, ret, lift; cbn [py_in_strs existsb String.eqb
    Ascii.eqb Bool.eqb orb negb];
  repeat match goal with
         | |- context [match plot_merge ?s ?o with _ => _ end] =>
             destruct (plot_merge s o); [|reflexivity]
         | |- context [match variables_to_use ?d ?v with _ => _ end] =>
             destruct (variables_to_use d v) as [[? ?]|]; [|reflexivity]
         | |- context [match y_range ?d with _ => _ end] =>
             destruct (y_range d); [|reflexivity]
         | |- context [match facet_rows ?n ?k with _ => _ end] =>
             destruct (facet_rows n k); [|reflexivity]
         | |- context [match spacing ?v ?r with _ => _ end] =>
             destruct (spacing v r); [|reflexivity]
         end.

(** X17.  Without a retained container, asking for the raw profiles
    changes nothing: [geom='profiles'] on an object whose [raw_profiles]
    is [None] is [geom='aggregates']. *)
Theorem plot_profiles_without_raw self objects variables size alpha facet_ncol
    title title_x horizontal_spacing vertical_spacing show log :
  raw_profiles self = None ->
  plot self objects (PyStr "profiles") variables size alpha facet_ncol title
    title_x horizontal_spacing vertical_spacing show log =
  plot self objects (PyStr "aggregates") variables size alpha facet_ncol title
    title_x horizontal_spacing vertical_spacing show log.
Proof.
  intros H. plot_stages.
  now rewrite (build_figure_without_raw self (PyStr "profiles")).
Qed.

(** X18.  With [geom='aggregates'] the retained container is not looked
    at: whatever [raw_profiles] holds, the same calls are made and the same
    figure comes back. *)
Theorem plot_aggregates_ignores_raw_profiles v self objects variables size
    alpha facet_ncol title title_x horizontal_spacing vertical_spacing show
    log :
  plot (set_raw_profiles v self) objects (PyStr "aggregates") variables size
    alpha facet_ncol title title_x horizontal_spacing vertical_spacing show
    log =
  plot self objects (PyStr "aggregates") variables size alpha facet_ncol title
    title_x horizontal_spacing vertical_spacing show log.
Proof.
  unfold plot, bind, lift. rewrite plot_merge_set_raw_profiles.
  plot_stages. now rewrite build_figure_aggregates.
Qed.

(** ** The further properties at concrete inputs *)

Lemma fit_empty_sequence_raises_witness :
  exists self' e,
    fit_partial (PyTuple []) true fitted1 = (self', Raise e)
    /\ raw_profiles self' = raw_profiles fitted1
    /\ mean_prediction self' = mean_prediction fitted1
    /\ (self' = fitted1 \/
        exists r msg, self' = set_result (Some r) fitted1 /\ e = TypeError msg).
Proof.
  apply (fit_empty_sequence_raises prepare_all_variables_spec
           prepare_numerical_categorical_spec create_x_spec
           aggregate_profiles_partial (PyTuple []) true fitted1).
  now right.
Defined.

Lemma fit_single_or_singleton_witness :
  result (fst (fit_partial (PyCP cp1) true (fresh NamesNone))) =
    result (fst (fit_partial (PyList [PyCP cp1]) true (fresh NamesNone)))
  /\ mean_prediction (fst (fit_partial (PyCP cp1) true (fresh NamesNone))) =
       mean_prediction
         (fst (fit_partial (PyList [PyCP cp1]) true (fresh NamesNone))).
Proof.
  apply (proj2 (proj2 (proj2
           (fit_single_or_singleton prepare_all_variables_spec
              prepare_numerical_categorical_spec create_x_spec
              aggregate_profiles_partial cp1 true (fresh NamesNone))))).
  reflexivity.
Defined.

Lemma fit_merged_containers_witness :
  fit_partial (PyList [PyCP cp1; PyCP cp2]) true (fresh NamesNone) =
  fit_partial (PyList [PyCP (merge_containers [cp1; cp2])]) true
    (fresh NamesNone).
Proof.
  apply (fit_merged_containers prepare_all_variables_spec
           prepare_numerical_categorical_spec create_x_spec
           aggregate_profiles_partial [cp1; cp2] true (fresh NamesNone)).
  discriminate.
Defined.

Lemma fit_returns_iff_witness :
  exists self', fit_partial (PyCP cp1) true (fresh NamesNone) = (self', Ok tt).
Proof.
  apply (proj2 (fit_returns_iff prepare_all_variables_spec
                  prepare_numerical_categorical_spec create_x_spec
                  aggregate_profiles_partial (PyCP cp1) true
                  (fresh NamesNone))).
  split; [reflexivity|]. split; [discriminate|].
  eexists. vm_compute. reflexivity.
Defined.

Lemma fit_then_plot_merge_witness :
  exists rows,
    result fitted1 = Some rows /\
    plot_merge fitted1 PyNone =
      Ok (map (fun r =>
                 (r, Some (mean (map Obs._yhat_
                                   (supplied_observations (PyCP cp1))))))
            rows).
Proof.
  apply (fit_then_plot_merge prepare_all_variables_spec
           prepare_numerical_categorical_spec create_x_spec
           aggregate_profiles_partial (PyCP cp1) true (fresh NamesNone)
           fitted1).
  reflexivity.
Defined.

Lemma plot_before_fit_witness :
  plot_defaults (fresh NamesNone) (PyAP fitted1) (PyStr "profiles") NamesNone
    true []
  = ([], Raise (AttributeError "'NoneType' object has no attribute 'assign'")).
Proof.
  unfold plot_defaults. apply plot_before_fit; [now right|now left].
Defined.

Lemma fitted1_has_result : result fitted1 <> None.
Proof. intros H. vm_compute in H. discriminate. Qed.

Lemma fitted12_has_result : result fitted12 <> None.
Proof. intros H. vm_compute in H. discriminate. Qed.

Lemma plot_rejects_foreign_object_witness :
  exists msg,
    plot_defaults fitted1 (PyList [PyAP fitted12; PyStr "ap"])
      (PyStr "aggregates") NamesNone true []
    = ([], Raise (TypeError msg)).
Proof.
  unfold plot_defaults.
  apply (plot_rejects_foreign_object fitted1 [PyAP fitted12; PyStr "ap"] _
           (PyStr "ap")).
  - now left.
  - exact fitted1_has_result.
  - simpl. auto.
  - discriminate.
  - repeat constructor. exact fitted12_has_result.
Defined.

Lemma plot_merge_rows_witness :
  plot_merge fitted1 (PyList [PyAP fitted12; PyAP fitted1]) =
    Ok (tagged fitted1 ++ tagged fitted12 ++ tagged fitted1 ++ [])%list.
Proof.
  apply (proj1 (plot_merge_rows fitted1 [fitted12; fitted1]
                  fitted1_has_result)).
  repeat constructor;
    [exact fitted12_has_result|exact fitted1_has_result].
Defined.

Lemma variables_to_use_selection_witness :
  exists kept,
    variables_to_use (tagged fitted12) (Some ["sex"; "fare"; "age"; "fare"])
      = Ok (["age"; "fare"], kept)
    /\ Sorted string_le ["age"; "fare"]
    /\ kept = filter (fun r => isin (Agg._vname_ (fst r))
                                 ["sex"; "fare"; "age"; "fare"])
                (tagged fitted12).
Proof.
  eexists. split; [vm_compute; reflexivity|].
  destruct (variables_to_use_selection (tagged fitted12)
              (Some ["sex"; "fare"; "age"; "fare"]) ["age"; "fare"] _
              eq_refl)
    as (_ & _ & Hk & Hs).
  split; [apply Hs; discriminate|exact Hk].
Defined.

Lemma variables_to_use_raises_iff_witness :
  exists e, variables_to_use (tagged fitted1) (Some ["fare"]) = Raise e.
Proof.
  apply (proj2 (variables_to_use_raises_iff (tagged fitted1) (Some ["fare"]))).
  exists ["fare"]. split; [reflexivity|].
  intros v [<-|[]]. vm_compute. intuition discriminate.
Defined.

Lemma facet_rows_enough_witness :
  exists facet_nrow,
    facet_rows 5 2 = Ok facet_nrow
    /\ 0 <= facet_nrow
    /\ (facet_nrow - 1) * 2 < 5 <= facet_nrow * 2.
Proof. apply facet_rows_enough; lia. Defined.

Lemma plot_zero_columns_witness :
  plot fitted1 PyNone (PyStr "aggregates") NamesNone 2 1 0
    "Aggregated Profiles" "prediction" (1 # 20) None true []
  = ([], Raise (ZeroDivisionError "division by zero")).
Proof.
  apply (plot_zero_columns fitted1 PyNone (PyStr "aggregates") NamesNone 2 1
           "Aggregated Profiles" "prediction" (1 # 20) None true []
           (tagged fitted1) (dropna_unique (available (tagged fitted1)))
           (tagged fitted1)).
  - now left.
  - reflexivity.
  - reflexivity.
  - vm_compute. discriminate.
Defined.

Lemma plot_profiles_without_raw_witness :
  plot_defaults fitted12 PyNone (PyStr "profiles") NamesNone false [] =
  plot_defaults fitted12 PyNone (PyStr "aggregates") NamesNone false [].
Proof.
  unfold plot_defaults. apply plot_profiles_without_raw. reflexivity.
Defined.
